(** * cachex: key derivation and call interception

    A shallow embedding of the memoizing decorator of [cachex]
    ([decorator/Decorator.py], [decorator/CacheKeyHelper.py]) and of the
    counting cache mixin it stores into ([caches/CacheMixin.py]).

    Python objects are modelled by the inductive type [pyval], exceptions by
    a class and a message, a call by explicit state passing: a function from
    the state before to an [outcome] and the state after. Locks are context
    managers whose only effect is mutual exclusion; in this sequential model
    entering and leaving one is the identity, so they do not appear. *)

From Stdlib Require Import ZArith.
From stdpp Require Import base option list gmap strings.

Open Scope nat_scope.
#[local] Set Warnings "-register-all".

(** ** Python classes and exceptions *)

(** The classes the decorator inspects: whether a value is a class at all
    ([isinstance(e, type)]) and whether it derives from [Exception]. *)
Inductive pyclass : Type :=
  | Cobject
  | Cint
  | Cstr
  | CBaseException
  | CException
  | CKeyboardInterrupt
  | CLookupError
  | CKeyError
  | CIndexError
  | CValueError
  | CTypeError
  | CAttributeError
  | CNonException
  | CUser (name : string) (base : pyclass).

#[global] Instance pyclass_eq_dec : EqDecision pyclass.
Proof. solve_decision. Defined.

(** Modelled from the spec: [NonException] is declared in
    [decorator/CachedException.py], which is not under src/; it is the
    sentinel class that stands for "no exception is cached", taken here as
    a direct subclass of [Exception] that the decorated code does not
    raise. The other rows are the method resolution order of Python's
    built-in classes: the class followed by its ancestors. *)
Fixpoint mro (c : pyclass) : list pyclass :=
  match c with
  | Cobject => [Cobject]
  | Cint => [Cint; Cobject]
  | Cstr => [Cstr; Cobject]
  | CBaseException => [CBaseException; Cobject]
  | CException => [CException; CBaseException; Cobject]
  | CKeyboardInterrupt => [CKeyboardInterrupt; CBaseException; Cobject]
  | CLookupError => [CLookupError; CException; CBaseException; Cobject]
  | CKeyError => [CKeyError; CLookupError; CException; CBaseException; Cobject]
  | CIndexError => [CIndexError; CLookupError; CException; CBaseException; Cobject]
  | CValueError => [CValueError; CException; CBaseException; Cobject]
  | CTypeError => [CTypeError; CException; CBaseException; Cobject]
  | CAttributeError => [CAttributeError; CException; CBaseException; Cobject]
  | CNonException => [CNonException; CException; CBaseException; Cobject]
  | CUser n b => CUser n b :: mro b
  end.

Definition issubclass (c d : pyclass) : bool := bool_decide (d ∈ mro c).

(** An exception instance: its class and its message. *)
Record pyexc : Type := PyExc { exc_type : pyclass; exc_msg : string }.

#[global] Instance pyexc_eq_dec : EqDecision pyexc.
Proof. solve_decision. Defined.

(** The result of running Python code: a value, or a raised exception. *)
Inductive outcome (A : Type) : Type :=
  | Return (v : A)
  | Raise (e : pyexc).
Arguments Return {A} v.
Arguments Raise {A} e.

(** ** Python values *)

(** Arguments of calls and of the decorator. [VDict] is a [dict] in
    insertion order; [VHashableDict] is the [_hashabledict] subclass of
    CacheKeyHelper.py; [VCacheInstance] is an instance of a converted cache
    class (a mapping too, known by its identity); [VObject] is any other
    instance, known by its identity. *)
Inductive pyval : Type :=
  | VNone
  | VBool (b : bool)
  | VInt (z : Z)
  | VStr (s : string)
  | VBytes (s : string)
  | VTuple (items : list pyval)
  | VList (items : list pyval)
  | VDict (items : list (pyval * pyval))
  | VHashableDict (items : list (pyval * pyval))
  | VCacheInstance (id : nat) (items : list (pyval * pyval))
  | VClass (c : pyclass)
  | VObject (id : nat).

Definition kwargs_t : Type := list (string * pyval).

#[global] Instance pyval_eq_dec : EqDecision pyval.
Proof.
  unfold EqDecision, Decision. fix go 1. intros a b.
  assert (EqDecision pyval) as Hd by exact go.
  destruct a as [|x|x|x|x|x|x|x|x|i x|x|x], b as [|y|y|y|y|y|y|y|y|j y|y|y];
    try (right; discriminate); try (left; reflexivity);
    try (destruct (decide (x = y)); [left; congruence | right; congruence]).
  destruct (decide (i = j)); [|right; congruence].
  destruct (decide (x = y)); [left; congruence | right; congruence].
Defined.

(** Truth value of a value, as [bool(v)] and [if v:] compute it. *)
Definition truthy (v : pyval) : bool :=
  match v with
  | VNone => false
  | VBool b => b
  | VInt z => negb (Z.eqb z 0)
  | VStr s | VBytes s => negb (String.eqb s "")
  | VTuple l | VList l => negb (Nat.eqb (length l) 0)
  | VDict l | VHashableDict l | VCacheInstance _ l => negb (Nat.eqb (length l) 0)
  | VClass _ => true
  | VObject _ => true
  end.

Fixpoint chars (s : string) : list pyval :=
  match s with
  | EmptyString => []
  | String c s' => VStr (String c EmptyString) :: chars s'
  end.

Fixpoint byte_values (s : string) : list pyval :=
  match s with
  | EmptyString => []
  | String c s' => VInt (Z.of_nat (Ascii.nat_of_ascii c)) :: byte_values s'
  end.

(** [iter(v)]: the items it yields, or [None] when [v] is not iterable
    ([iter] raises [TypeError]). A mapping yields its keys. *)
Definition py_iter (v : pyval) : option (list pyval) :=
  match v with
  | VStr s => Some (chars s)
  | VBytes s => Some (byte_values s)
  | VTuple l | VList l => Some l
  | VDict l | VHashableDict l | VCacheInstance _ l => Some (map fst l)
  | VNone | VBool _ | VInt _ | VClass _ | VObject _ => None
  end.

(** ** Decorator parameters and the decorated callable's shape *)

(** What [DecoratorHelper.has_args] returns: the number of positional
    arguments a callable allows, [math.inf] when it declares [*args]. *)
Inductive nargs : Type :=
  | Finite (n : nat)
  | Infinite.

Definition nargs_truthy (n : nargs) : bool :=
  match n with Finite 0 => false | _ => true end.

Inductive accessor_kind : Type :=
  | PlainCallable
  | ClassMethodObject
  | StaticMethodObject.

(** A user-supplied "get a resource" callable: its kind, its [__name__],
    what [has_args] counts on it (once bound, for a classmethod or
    staticmethod object), and what it returns for the receiver and the
    decorated function's name it is given. *)
Record accessor (R : Type) : Type := Accessor {
  acc_kind : accessor_kind;
  acc_name : string;
  acc_nargs : nargs;
  acc_call : option pyval → option string → R;
}.
Arguments Accessor {R} _ _ _ _.
Arguments acc_kind {R} _.
Arguments acc_name {R} _.
Arguments acc_nargs {R} _.
Arguments acc_call {R} _ _ _.

(** A parameter that is either a plain value or a callable getter
    ([DecoratorHelper.is_callable], [callable]). *)
Inductive param (R : Type) : Type :=
  | PValue (v : pyval)
  | PGetter (g : accessor R).
Arguments PValue {R} v.
Arguments PGetter {R} g.

Definition param_truthy {R} (p : param R) : bool :=
  match p with PValue v => truthy v | PGetter _ => true end.

(** A key function as the decorator sees it: a callable with a [__name__].
    Computing a key raises when an argument is not hashable. *)
Record keyfunction (K : Type) : Type := KeyFunction {
  key_name : string;
  key_call : list pyval → kwargs_t → outcome K;
}.
Arguments KeyFunction {K} _ _.
Arguments key_name {K} _.
Arguments key_call {K} _ _ _.

(** The parameters of [Decorator.__init__] other than [cache]. A cache is
    referred to by its address in the heap of cache instances; the lock a
    getter returns is not modelled. *)
Record Config (K : Type) : Type := MkConfig {
  typed : pyval;
  exceptions : pyval;
  stateful : param pyval;
  shared : param (option nat);
  key : option (keyfunction K);
  lock : param unit;
}.
Arguments MkConfig {K} _ _ _ _ _ _.
Arguments typed {K} _.
Arguments exceptions {K} _.
Arguments stateful {K} _.
Arguments shared {K} _.
Arguments key {K} _.
Arguments lock {K} _.

(** What is handed to the decorator: a function with its declared
    parameter names, a bound method (whose [__func__] declares the
    receiver too), an object already wrapped by [classmethod] or
    [staticmethod], or something that is not callable. *)
Inductive func_kind : Type :=
  | IsFunction
  | IsBoundMethod
  | IsClassmethodObject
  | IsStaticmethodObject
  | NotCallable.

Record pyfunc : Type := PyFunc {
  fn_kind : func_kind;
  fn_name : string;
  fn_params : list string;
}.

(** The [_transformer] applied after decoration: whether it carries an
    [isclassmethod] attribute, and whether it is [property]. *)
Record transformer : Type := Transformer {
  tr_isclassmethod : option bool;
  tr_is_property : bool;
}.

(** [FunctionDefinition] (Decorator.py, lines 111-142): the fields its
    constructor sets. *)
Record FunctionDefinition : Type := MkFunctionDefinition {
  isboundmethod : bool;
  arg_names : list string;
  isclassmethod : bool;
  arg_self : option string;
  isunboundmethod : bool;
}.

Definition ValueError (msg : string) : pyexc := PyExc CValueError msg.
Definition TypeError (msg : string) : pyexc := PyExc CTypeError msg.
Definition AttributeError (msg : string) : pyexc := PyExc CAttributeError msg.

Section FunctionDefinition.

(** [DecoratorHelper.defaults._arg_self]: the conventional names of a
    receiver parameter (a default of the library, not under src/). *)
Variable _arg_self : list string.

Definition FunctionDefinition_init (func : pyfunc) (tr : transformer)
    : outcome FunctionDefinition :=
  match fn_kind func with
  | IsClassmethodObject =>
      Raise (ValueError "Cannot cache classmethod. Use @cached.classmethod instead of @classmethod.")
  | IsStaticmethodObject =>
      Raise (ValueError "Cannot cache staticmethod. Use @cached.staticmethod instead of @staticmethod.")
  | NotCallable =>
      Raise (TypeError "Expected function to cache.")
  | (IsFunction | IsBoundMethod) as k =>
      let isbound := match k with IsBoundMethod => true | _ => false end in
      let names := fn_params func in
      let '(iscm, aself) :=
        match tr_isclassmethod tr with
        | Some b => (b, head names)
        | None =>
            (false,
             if tr_is_property tr then head names
             else match head names with
                  | Some n => if bool_decide (n ∈ _arg_self) then Some n else None
                  | None => None
                  end)
        end in
      Return {| isboundmethod := isbound;
                arg_names := names;
                isclassmethod := iscm;
                arg_self := aself;
                isunboundmethod :=
                  match aself with
                  | Some n => negb (String.eqb n "")
                  | None => false
                  end |}
  end.

End FunctionDefinition.

(** ** CacheKeyHelper.py *)

Module CacheKeyHelper.

(** [typedkeys = {False: 'hashkey', True: 'typedkey'}] (lines 21-24). *)
Definition typedkeys (k : bool) : string :=
  if k then "typedkey" else "hashkey".

(** [get_typed_from_key] (lines 34-37):
    [l = key and list(filter(lambda k: typedkeys[k] == key.__name__, typedkeys))],
    then [l and l[0] or None]: a first match [False] is falsy and gives
    [None] like no match. *)
Definition get_typed_from_key {K} (key : option (keyfunction K)) : option bool :=
  match key with
  | None => None
  | Some kf =>
      let l := filter (λ k, typedkeys k = key_name kf) [false; true] in
      match l with
      | [] => None
      | k :: _ => if k then Some true else None
      end
  end.

(** [make_obj_hashable] (lines 39-52): a cache instance is kept as it is,
    a mapping becomes a [_hashabledict] of its items with the values made
    hashable, an iterable other than [str] and [bytes] becomes a tuple of
    its items made hashable, anything else is kept. *)
Fixpoint make_obj_hashable (obj : pyval) : pyval :=
  match obj with
  | VCacheInstance _ _ => obj
  | VDict items | VHashableDict items =>
      VHashableDict (map (λ kv, let '(k, v) := kv in (k, make_obj_hashable v)) items)
  | VTuple items | VList items => VTuple (map make_obj_hashable items)
  | VNone | VBool _ | VInt _ | VStr _ | VBytes _ | VClass _ | VObject _ => obj
  end.

(** [make_items_hashable] (lines 54-64) at the tuple of positional
    arguments: the generator [(make_obj_hashable(o) for o in obj)]. *)
Definition make_items_hashable (args : list pyval) : list pyval :=
  map make_obj_hashable args.

(** [make_items_hashable] at the dict of keyword arguments:
    [{k : make_obj_hashable(obj[k]) for k in obj}]. *)
Definition make_items_hashable_kw (kwargs : kwargs_t) : kwargs_t :=
  map (λ kv, let '(k, v) := kv in (k, make_obj_hashable v)) kwargs.

Section KeyFunction.

Context {K : Type}.

(** [cachetools.keys.hashkey] and [cachetools.keys.typedkey], the two
    standard key functions (of the cachetools library, not under src/). *)
Variable hashkey typedkey : list pyval → kwargs_t → outcome K.

(** [get_obj_state(obj, attr_cache_name)], the snapshot of a receiver's
    state taken from its [__getstate__], [__dict__] or [__slots__]; what
    it reads off an object is a parameter here. *)
Variable get_obj_state : pyval → pyval.

(** [get_key_from_typed] (lines 30-32):
    [getattr(cachetools.keys, typedkeys[bool(typed)])]. *)
Definition get_key_from_typed (typed : bool) : list pyval → kwargs_t → outcome K :=
  if String.eqb (typedkeys typed) "typedkey" then typedkey else hashkey.

(** [make_key_func(funcdef, config)] (lines 116-177). [typed] is what
    [Decorator.__init__] left in the configuration: [bool(typed)], or
    [get_typed_from_key(key)] when a key function was given. The key
    function it returns raises [ValueError] when [obj, *args = args] finds
    no receiver. *)
Definition make_key_func (funcdef : FunctionDefinition) (typed : option bool)
    (config : Config K)
    : outcome (list pyval → kwargs_t → outcome K) :=
  let alttyped := get_typed_from_key (key config) in
  let typed := match alttyped with Some t => Some t | None => typed end in
  let key :=
    match key config, alttyped with
    | Some kf, None => key_call kf
    | _, _ => get_key_from_typed (default false typed)
    end in
  if isunboundmethod funcdef || isboundmethod funcdef then
    if param_truthy (stateful config) then
      let mk getstate :=
        Return (λ (args : list pyval) (kwargs : kwargs_t),
          match args with
          | [] => Raise (ValueError "not enough values to unpack (expected at least 1, got 0)")
          | obj :: args =>
              let args := getstate obj :: args in
              key (make_items_hashable args) (make_items_hashable_kw kwargs)
          end) in
      match stateful config with
      | PGetter g =>
          if nargs_truthy (acc_nargs g) then mk (λ obj, acc_call g (Some obj) None)
          else Raise (ValueError ("Object state getter must accept object as argument: " +:+ acc_name g +:+ "."))
      | PValue _ => mk get_obj_state
      end
    else
      Return (λ (args : list pyval) (kwargs : kwargs_t),
        match args with
        | [] => Raise (ValueError "not enough values to unpack (expected at least 1, got 0)")
        | obj :: args =>
            key (make_items_hashable args) (make_items_hashable_kw kwargs)
        end)
  else
    Return (λ (args : list pyval) (kwargs : kwargs_t),
      key (make_items_hashable args) (make_items_hashable_kw kwargs)).

End KeyFunction.

End CacheKeyHelper.

(** ** Stored values *)

(** Modelled from the spec: [decorator/CachedException.py] is not under
    src/. A [CachedException] wraps an exception instance so that it is
    stored as an ordinary value; [isinstance(v, CachedException)] tells
    it from a plain result. *)
Inductive cached : Type :=
  | Value (v : pyval)
  | CachedException (exception : pyexc).

(** ** The cache container *)

(** The bounded container that [CacheMixin] wraps (a [cachetools] cache
    class, reached through [super()]) is not under src/; the definitions of
    this module are modelled from the capability contract of the spec. *)
Module Cache.
Section Cache.

Context {K : Type} `{EqDecision K}.

(** Modelled from the spec: the container, a mapping with its items in
    insertion order, an optional capacity ([None]: unbounded) and the size
    function that weighs a value. *)
Record t : Type := Make {
  data : list (K * cached);
  maxsize : option nat;
  getsizeof : cached → nat;
}.

(** Modelled from the spec: the current size, the sum of the sizes of the
    items. *)
Definition currsize (c : t) : nat :=
  sum_list (map (λ kv, getsizeof c kv.2) (data c)).

Definition len (c : t) : nat := length (data c).

Fixpoint lookup (d : list (K * cached)) (k : K) : option cached :=
  match d with
  | [] => None
  | (k', v) :: d' => if decide (k' = k) then Some v else lookup d' k
  end.

(** Modelled from the spec: [get(key)], the stored value, or [None] for
    [KeyNotFound], on which the container falls back on the missing-key
    hook. *)
Definition getitem (c : t) (k : K) : option cached := lookup (data c) k.

Definition above (n : nat) (limit : option nat) : bool :=
  match limit with
  | Some m => Nat.ltb m n
  | None => false
  end.

(** Modelled from the spec: making room, by dropping the oldest items
    while the new value does not fit. *)
Fixpoint evict (c : t) (size : nat) (d : list (K * cached)) : list (K * cached) :=
  if above (sum_list (map (λ kv, getsizeof c kv.2) d) + size) (maxsize c) then
    match d with
    | [] => []
    | _ :: d' => evict c size d'
    end
  else d.

(** Assigning in a dict: the item keeps its place, a new key goes last. *)
Fixpoint assign (d : list (K * cached)) (k : K) (v : cached) : list (K * cached) :=
  match d with
  | [] => [(k, v)]
  | (k', v') :: d' =>
      if decide (k' = k) then (k, v) :: d' else (k', v') :: assign d' k v
  end.

Definition with_data (c : t) (d : list (K * cached)) : t :=
  {| data := d; maxsize := maxsize c; getsizeof := getsizeof c |}.

(** Modelled from the spec: [set(key, value)]. [None] stands for
    [CapacityRejected], the [ValueError] of a value too large for the
    capacity, which leaves the container as it was; otherwise room is made
    and the item is stored. *)
Definition setitem (c : t) (k : K) (v : cached) : option t :=
  let size := getsizeof c v in
  if above size (maxsize c) then None
  else
    let d :=
      match lookup (data c) k with
      | Some old =>
          if Nat.ltb (getsizeof c old) size then evict c size (data c) else data c
      | None => evict c size (data c)
      end in
    Some (with_data c (assign d k v)).

(** Modelled from the spec: [clear()]. *)
Definition clear (c : t) : t := with_data c [].

End Cache.
Arguments t K : clear implicits.
End Cache.

(** ** CacheMixin.py *)

Module CacheMixin.
Section CacheMixin.

Context {K : Type} `{EqDecision K}.

(** [_CacheInfo]. *)
Record CacheInfo : Type := MkCacheInfo {
  info_hits : nat;
  info_misses : nat;
  info_maxsize : option nat;
  info_currsize : nat;
}.

(** The state of a converted cache instance: the wrapped container
    ([super()]), the counters, the flags of the automatic counting and
    the [__enable] flag of its [CountersContext]. *)
Record t : Type := Make {
  base : Cache.t K;
  hits : nat;
  misses : nat;
  _counters_used : bool;
  counters_enabled : bool;
  missed : option bool;
  counters_hits_suspended : bool;
  counters_misses_suspended : bool;
  context_enable : bool;
}.

Definition with_base (m : t) (b : Cache.t K) : t :=
  Make b (hits m) (misses m) (_counters_used m) (counters_enabled m)
    (missed m) (counters_hits_suspended m) (counters_misses_suspended m)
    (context_enable m).

Definition with_counters (m : t) (h mi : nat) (used : bool) : t :=
  Make (base m) h mi used (counters_enabled m)
    (missed m) (counters_hits_suspended m) (counters_misses_suspended m)
    (context_enable m).

Definition with_counters_enabled (m : t) (b : bool) : t :=
  Make (base m) (hits m) (misses m) (_counters_used m) b
    (missed m) (counters_hits_suspended m) (counters_misses_suspended m)
    (context_enable m).

Definition with_missed (m : t) (x : option bool) : t :=
  Make (base m) (hits m) (misses m) (_counters_used m) (counters_enabled m)
    x (counters_hits_suspended m) (counters_misses_suspended m)
    (context_enable m).

Definition with_hits_suspended (m : t) (b : bool) : t :=
  Make (base m) (hits m) (misses m) (_counters_used m) (counters_enabled m)
    (missed m) b (counters_misses_suspended m) (context_enable m).

Definition with_misses_suspended (m : t) (b : bool) : t :=
  Make (base m) (hits m) (misses m) (_counters_used m) (counters_enabled m)
    (missed m) (counters_hits_suspended m) b (context_enable m).

Definition with_context_enable (m : t) (b : bool) : t :=
  Make (base m) (hits m) (misses m) (_counters_used m) (counters_enabled m)
    (missed m) (counters_hits_suspended m) (counters_misses_suspended m) b.

(** [counters_reset], [did_hit] and [did_miss] (lines 186-196). *)
Definition counters_reset (m : t) : t := with_counters m 0 0 false.

(** [__init__] (lines 65-103): the container as configured, counters
    reset, automatic counting off. *)
Definition init (maxsize : option nat) (getsizeof : cached → nat) : t :=
  Make (Cache.Make [] maxsize getsizeof) 0 0 false false None false false true.

(** [clone] (lines 124-126): a new instance of the same class, built from
    the configuration this one was built from. *)
Definition clone (m : t) : t :=
  init (Cache.maxsize (base m)) (Cache.getsizeof (base m)).

Definition did_hit (m : t) : t := with_counters m (hits m + 1) (misses m) true.
Definition did_miss (m : t) : t := with_counters m (hits m) (misses m + 1) true.

(** [CountersContext.__call__], [__enter__] (which returns the state it
    saves) and [__exit__] (lines 28-46). *)
Definition counters_call (m : t) (enable : bool) : t := with_context_enable m enable.

Definition counters_enter (m : t) : bool * t :=
  (counters_enabled m, with_counters_enabled m (context_enable m)).

Definition counters_exit (saved : bool) (m : t) : t :=
  with_context_enable (with_counters_enabled m saved) true.

(** [__missing__] (lines 170-179): note the miss unless suspended, then
    [super().__missing__], which raises [KeyError] ([None]). *)
Definition missing (m : t) (k : K) : t * option cached :=
  let m1 :=
    if counters_enabled m && negb (counters_misses_suspended m)
    then with_missed (with_misses_suspended m true) (Some true)
    else m in
  (m1, None).

(** [super().__getitem__(key)]: the container returns the item or falls
    back on [self.__missing__(key)]. *)
Definition super_getitem (m : t) (k : K) : t * option cached :=
  match Cache.getitem (base m) k with
  | Some v => (m, Some v)
  | None => missing m k
  end.

(** [__getitem__] (lines 149-168); [None] is [KeyError]. The [finally]
    block counts the access and lifts the suspensions. *)
Definition getitem (m : t) (k : K) : t * option cached :=
  if counters_enabled m && negb (counters_hits_suspended m) then
    let m1 := with_missed (with_hits_suspended m true) (Some false) in
    let '(m2, r) := super_getitem m1 k in
    let m3 := match r with
              | Some _ => m2
              | None => with_missed m2 (Some true)
              end in
    let m4 := match missed m3 with
              | Some false => did_hit m3
              | _ => did_miss m3
              end in
    let m5 := with_misses_suspended
                (with_hits_suspended (with_missed m4 None) false) false in
    (m5, r)
  else super_getitem m k.

(** [cache[k] = v]: the mixin does not override [__setitem__]. [None] is
    the container's [ValueError]. *)
Definition setitem (m : t) (k : K) (v : cached) : option t :=
  with_base m <$> Cache.setitem (base m) k v.

(** [clear] (lines 181-184): [super().clear()], then the counters. *)
Definition clear (m : t) : t :=
  counters_reset (with_base m (Cache.clear (base m))).

(** [_maxsize_info], [_currsize_info] and [info] (lines 105-122, 222-224):
    an infinite capacity is reported as [None]. *)
Definition _maxsize_info (m : t) : option nat := Cache.maxsize (base m).
Definition _currsize_info (m : t) : nat := Cache.currsize (base m).

Definition info (m : t) : CacheInfo :=
  MkCacheInfo (hits m) (misses m) (_maxsize_info m) (_currsize_info m).

(** A cache between two accesses: no access is under way and its counters
    context is in its initial state. The constructor establishes this and
    every operation above restores it. *)
Definition at_rest (m : t) : Prop :=
  counters_hits_suspended m = false ∧
  counters_misses_suspended m = false ∧
  missed m = None ∧
  context_enable m = true.

End CacheMixin.
Arguments t K : clear implicits.
End CacheMixin.

(** ** Decorator.py *)

#[global] Instance outcome_ret : MRet outcome := λ A x, Return x.
#[global] Instance outcome_bind : MBind outcome := λ A B f x,
  match x with
  | Return v => f v
  | Raise e => Raise e
  end.

Module Decorator.
Section Decorator.

Context {K : Type} `{EqDecision K}.

(** The state of the decorated code itself, and the original callable as
    a function of it: it returns or raises, and leaves a new state. The
    callable does not reach into the caches. *)
Context {U : Type}.
Variable call : U → list pyval → kwargs_t → outcome pyval * U.

Variable hashkey typedkey : list pyval → kwargs_t → outcome K.
Variable get_obj_state : pyval → pyval.
Variable _arg_self : list string.

(** *** Decorator.__init__ (lines 156-191) *)

(** What follows [except] in the wrapper: a class or a tuple of classes. *)
Inductive exceptions_t : Type :=
  | ExcClass (c : pyclass)
  | ExcTuple (l : list pyclass).

(** [isinstance(e, type) and issubclass(e, Exception)]. *)
Definition exception_class (v : pyval) : option pyclass :=
  match v with
  | VClass c => if issubclass c CException then Some c else None
  | _ => None
  end.

(** The exceptions to be cached (lines 180-191): a falsy parameter, or
    one that ends up as [None], stands for [NonException]. *)
Definition normalize_exceptions (exceptions : pyval) : exceptions_t :=
  let exceptions : option exceptions_t :=
    if truthy exceptions then
      match py_iter exceptions with
      | None =>
          match exception_class exceptions with
          | Some c => Some (ExcClass c)
          | None => Some (ExcClass CException)
          end
      | Some exceptions_iter =>
          match omap exception_class exceptions_iter with
          | [] => None
          | l => Some (ExcTuple l)
          end
      end
    else None in
  match exceptions with
  | Some e => e
  | None => ExcClass CNonException
  end.

(** [except exceptions as e]: does the clause catch [e]? *)
Definition caught (exceptions : exceptions_t) (e : pyexc) : bool :=
  match exceptions with
  | ExcClass c => issubclass (exc_type e) c
  | ExcTuple l => existsb (issubclass (exc_type e)) l
  end.

(** [typed] as [__init__] leaves it in the configuration, and the
    parameters it finds irrelevant. *)
Definition init_typed (cfg : Config K) : option bool :=
  match key cfg with
  | Some kf => CacheKeyHelper.get_typed_from_key (Some kf)
  | None => Some (truthy (typed cfg))
  end.

Definition init_irrelevant (cfg : Config K) : list string :=
  "_transformer" :: match key cfg with Some _ => ["typed"] | None => ["key"] end.

(** *** The caches a decorated callable works on *)

(** Where a cache instance lives: the instance the decorator owns, the
    one attached to a receiver under the decorated function's name, or
    one that the shared-cache getter hands out (known by its identity). *)
Inductive location : Type :=
  | Own
  | Attached (obj : nat) (funcname : string)
  | Shared (id : nat).

(** The state a decorated callable runs in: the cache instance the
    decorator owns ([cache] in its closure), the cache storage attached to
    each receiver (a dict from function name to cache, per object
    identity), the caches that a shared-cache getter hands out, the state
    of the decorated code, and the number of times the original callable
    has been invoked so far. *)
Record World : Type := MkWorld {
  own : CacheMixin.t K;
  attached : gmap nat (gmap string (CacheMixin.t K));
  shared_caches : gmap nat (CacheMixin.t K);
  user : U;
  invocations : nat;
}.

Definition read (w : World) (l : location) : option (CacheMixin.t K) :=
  match l with
  | Own => Some (own w)
  | Attached o f => attached w !! o ≫= λ cstorage, cstorage !! f
  | Shared i => shared_caches w !! i
  end.

Definition write (w : World) (l : location) (m : CacheMixin.t K) : World :=
  match l with
  | Own => MkWorld m (attached w) (shared_caches w) (user w) (invocations w)
  | Attached o f =>
      MkWorld (own w)
        (<[o := <[f := m]> (default ∅ (attached w !! o))]> (attached w))
        (shared_caches w) (user w) (invocations w)
  | Shared i =>
      MkWorld (own w) (attached w) (<[i := m]> (shared_caches w))
        (user w) (invocations w)
  end.

(** One invocation of the original callable. *)
Definition invoke (w : World) (args : list pyval) (kwargs : kwargs_t)
    : outcome pyval * World :=
  let '(r, u) := call (user w) args kwargs in
  (r, MkWorld (own w) (attached w) (shared_caches w) u (S (invocations w))).

(** *** decorator(func) (lines 195-355) *)

(** [check_accessor_allowed] (lines 209-215): nothing for a bound or
    unbound method, [ValueError] otherwise. The description is passed
    already capitalized. *)
Definition check_accessor_allowed {R} (funcdef : FunctionDefinition)
    (accessor_desc : string) (accessor_func : accessor R) : outcome unit :=
  if isboundmethod funcdef || isunboundmethod funcdef then Return tt
  else Raise (ValueError (accessor_desc
         +:+ " getter with object argument used in non-method function: "
         +:+ acc_name accessor_func +:+ ".")).

(** [get_self] (lines 219-223). *)
Definition get_self (funcname : string) (args : list pyval) : outcome pyval :=
  match args with
  | obj :: _ => Return obj
  | [] => Raise (TypeError (funcname +:+ "() missing 1 required positional argument."))
  end.

Definition nargs_above (n : nargs) (k : nat) : bool :=
  match n with Finite x => k <? x | Infinite => true end.

(** [get_accessor] (lines 225-279): the simplest getter of the resource,
    and whether it depends on the receiver. *)
Definition get_accessor {R} (funcdef : FunctionDefinition) (funcname : string)
    (accessor_func : accessor R) (accessor_desc : string)
    : outcome ((list pyval → outcome R) * bool) :=
  match acc_kind accessor_func with
  | ClassMethodObject =>
      _ ← check_accessor_allowed funcdef accessor_desc accessor_func;
      if nargs_above (acc_nargs accessor_func) 0 then
        Return (λ args, obj ← get_self funcname args;
                        Return (acc_call accessor_func (Some obj) (Some funcname)),
                true)
      else
        Return (λ args, obj ← get_self funcname args;
                        Return (acc_call accessor_func (Some obj) None),
                true)
  | PlainCallable | StaticMethodObject =>
      if nargs_truthy (acc_nargs accessor_func) then
        _ ← check_accessor_allowed funcdef accessor_desc accessor_func;
        if nargs_above (acc_nargs accessor_func) 1 then
          Return (λ args, obj ← get_self funcname args;
                          Return (acc_call accessor_func (Some obj) (Some funcname)),
                  true)
        else
          Return (λ args, obj ← get_self funcname args;
                          Return (acc_call accessor_func (Some obj) None),
                  true)
      else
        Return (λ _, Return (acc_call accessor_func None None), false)
  end.

(** How the cache of a call is found: through the shared-cache getter
    (with what [get_accessor] made of it and what [shared()] returns), in
    the storage attached to the receiver, or the decorator's own. *)
Inductive binding : Type :=
  | SharedCache (get_resource : list pyval → outcome (option nat))
      (is_dependent : bool) (shared : option nat)
  | PerInstance
  | FunctionOwned.

(** What [decorator(func)] builds for the wrapper and its accessors. *)
Record Decorated : Type := MkDecorated {
  funcdef : FunctionDefinition;
  funcname : string;
  cache_binding : binding;
  cache_key : list pyval → kwargs_t → outcome K;
  cached_exceptions : exceptions_t;
  config_irrelevant : list string;
}.

Definition decorator (cfg : Config K) (_transformer : transformer) (func : pyfunc)
    : outcome Decorated :=
  funcdef ← FunctionDefinition_init _arg_self func _transformer;
  let config_irrelevant :=
    init_irrelevant cfg ++
    (if isboundmethod funcdef || isunboundmethod funcdef then [] else ["stateful"]) in
  let funcname := fn_name func in
  '(cache_binding, config_irrelevant) ←
    match shared cfg with
    | PGetter g =>
        '(get_cache, is_dependent) ← get_accessor funcdef funcname g "Shared cache";
        Return (SharedCache get_cache is_dependent (acc_call g None None),
                config_irrelevant ++ ["cache"])
    | PValue shared =>
        if negb (truthy shared) && isunboundmethod funcdef
           && negb (isclassmethod funcdef)
        then Return (PerInstance, config_irrelevant)
        else Return (FunctionOwned,
                     config_irrelevant ++
                     (if isunboundmethod funcdef then [] else ["shared"]))
    end;
  key ← CacheKeyHelper.make_key_func hashkey typedkey get_obj_state
          funcdef (init_typed cfg) cfg;
  config_irrelevant ←
    match lock cfg with
    | PGetter g =>
        _ ← get_accessor funcdef funcname g "Lock";
        Return config_irrelevant
    | PValue lock =>
        Return (if truthy lock then config_irrelevant
                else config_irrelevant ++ ["lock"])
    end;
  Return {| funcdef := funcdef;
            funcname := funcname;
            cache_binding := cache_binding;
            cache_key := key;
            cached_exceptions := normalize_exceptions (exceptions cfg);
            config_irrelevant := config_irrelevant |}.

(** *** The wrapper *)

(** [get_cache] (lines 283-312): the cache of this call, or Python's
    [None]. For a method with one cache per instance, the cache is looked
    up in the storage attached to the receiver and cloned from the
    decorator's own on first use; only a plain instance ([VObject]) can
    carry that attribute. *)
Definition get_cache (d : Decorated) (w : World) (args : list pyval)
    : outcome (option location) * World :=
  match cache_binding d with
  | SharedCache get_resource _ _ =>
      match get_resource args with
      | Return c => (Return (Shared <$> c), w)
      | Raise e => (Raise e, w)
      end
  | PerInstance =>
      match get_self (funcname d) args with
      | Raise e => (Raise e, w)
      | Return (VObject o) =>
          let cstorage := default ∅ (attached w !! o) in
          match cstorage !! funcname d with
          | Some _ => (Return (Some (Attached o (funcname d))), w)
          | None =>
              (Return (Some (Attached o (funcname d))),
               write w (Attached o (funcname d)) (CacheMixin.clone (own w)))
          end
      | Return _ =>
          (Raise (AttributeError "object has no attribute for the cache storage"), w)
      end
  | FunctionOwned => (Return (Some Own), w)
  end.

(** [cache_accessor(obj_self, obj_other)] (lines 292, 314-338), with the
    receiver the accessor
    is bound to, if any. *)
Definition cache_accessor (d : Decorated) (w : World) (obj_self : option pyval)
    : outcome (option location) * World :=
  match cache_binding d with
  | SharedCache _ false shared => (Return (Shared <$> shared), w)
  | FunctionOwned => (Return (Some Own), w)
  | SharedCache _ true _ | PerInstance =>
      match obj_self with
      | None => (Return (Some Own), w)
      | Some obj => get_cache d w [obj]
      end
  end.

(** [raise v.exception] for a cached exception, [return v] otherwise. *)
Definition deliver (v : cached) : outcome pyval :=
  match v with
  | Value x => Return x
  | CachedException e => Raise e
  end.

(** [with lock, cache.counters: v = cache[k]]: the lookup with the
    automatic counters switched on for its duration; [None] is the
    [KeyError] of a miss. *)
Definition guarded_lookup (m : CacheMixin.t K) (k : K)
    : CacheMixin.t K * option cached :=
  let '(saved, m) := CacheMixin.counters_enter m in
  let '(m, v) := CacheMixin.getitem m k in
  (CacheMixin.counters_exit saved m, v).

(** What the call on a miss leaves to be stored: the result, or the
    exception if [except exceptions] catches it; [None] when the exception
    propagates. *)
Definition computed (d : Decorated) (r : outcome pyval) : option cached :=
  match r with
  | Return x => Some (Value x)
  | Raise e =>
      if caught (cached_exceptions d) e then Some (CachedException e) else None
  end.

(** [with lock: cache[k] = v], where a [ValueError] (value too large) is
    passed over. *)
Definition guarded_store (m : CacheMixin.t K) (k : K) (v : cached) : CacheMixin.t K :=
  match CacheMixin.setitem m k v with
  | Some m' => m'
  | None => m
  end.

(** The wrapper once its cache [m] and its key [k] are known: the lookup,
    then on a miss the call and the store. Returns the cache as the call
    leaves it. *)
Definition wrapper_on (d : Decorated) (m : CacheMixin.t K) (k : K)
    (w : World) (args : list pyval) (kwargs : kwargs_t)
    : outcome pyval * CacheMixin.t K * World :=
  let '(m, hit) := guarded_lookup m k in
  match hit with
  | Some v => (deliver v, m, w)
  | None =>
      let '(r, w) := invoke w args kwargs in
      match computed d r with
      | None => (r, m, w)
      | Some v => (deliver v, guarded_store m k v, w)
      end
  end.

(** [wrapper] (lines 357-383). A shared-cache getter that hands out
    something that is no cache makes the call fail on its first use. *)
Definition wrapper (d : Decorated) (w : World) (args : list pyval) (kwargs : kwargs_t)
    : outcome pyval * World :=
  match get_cache d w args with
  | (Raise e, w) => (Raise e, w)
  | (Return None, w) => invoke w args kwargs
  | (Return (Some l), w) =>
      match read w l with
      | None => (Raise (AttributeError "object has no attribute 'lock'"), w)
      | Some m =>
          match cache_key d args kwargs with
          | Raise e => (Raise e, w)
          | Return k =>
              let '(r, m, w) := wrapper_on d m k w args kwargs in
              (r, write w l m)
          end
      end
  end.

(** [cache_clear] and [cache_info] (lines 387-396). *)
Definition cache_clear (d : Decorated) (w : World) (obj_self : option pyval)
    : outcome unit * World :=
  match cache_accessor d w obj_self with
  | (Raise e, w) => (Raise e, w)
  | (Return None, w) => (Raise (AttributeError "'NoneType' object has no attribute 'lock'"), w)
  | (Return (Some l), w) =>
      match read w l with
      | None => (Raise (AttributeError "object has no attribute 'lock'"), w)
      | Some m => (Return (), write w l (CacheMixin.clear m))
      end
  end.

Definition cache_info (d : Decorated) (w : World) (obj_self : option pyval)
    : outcome CacheMixin.CacheInfo * World :=
  match cache_accessor d w obj_self with
  | (Raise e, w) => (Raise e, w)
  | (Return None, w) => (Raise (AttributeError "'NoneType' object has no attribute 'lock'"), w)
  | (Return (Some l), w) =>
      match read w l with
      | None => (Raise (AttributeError "object has no attribute 'lock'"), w)
      | Some m => (Return (CacheMixin.info m), w)
      end
  end.

End Decorator.
End Decorator.

(** * Concrete callables

    The inputs at which the properties below are exercised: caches keyed by
    Python values, a callable without state of its own, and the decorator
    parameters of a few decorations. *)

Module Examples.

Import Decorator.

(** Key functions in the manner of [cachetools.keys]: the tuple of the
    positional arguments and of the keyword arguments as name and value,
    followed for the typed variant by the kind of each value. *)
Definition kind_of (v : pyval) : pyval :=
  match v with
  | VNone => VStr "NoneType"
  | VBool _ => VStr "bool"
  | VInt _ => VStr "int"
  | VStr _ => VStr "str"
  | VBytes _ => VStr "bytes"
  | VTuple _ => VStr "tuple"
  | VList _ => VStr "list"
  | VDict _ | VHashableDict _ => VStr "dict"
  | VCacheInstance _ _ => VStr "cache"
  | VClass _ => VStr "type"
  | VObject _ => VStr "object"
  end.

Definition hashkey (args : list pyval) (kwargs : kwargs_t) : outcome pyval :=
  Return (VTuple (args ++ flat_map (λ kv, [VStr kv.1; kv.2]) kwargs)).

Definition typedkey (args : list pyval) (kwargs : kwargs_t) : outcome pyval :=
  Return (VTuple (args ++ flat_map (λ kv, [VStr kv.1; kv.2]) kwargs
                  ++ map kind_of args ++ map (λ kv, kind_of kv.2) kwargs)).

(** A custom key function: the tuple of the positional arguments as they
    are handed to it, like [lambda *args, **kwargs: args]. *)
Definition args_key : keyfunction pyval :=
  KeyFunction "args_key" (λ args _, Return (VTuple args)).

(** The state of a receiver, taken to be the receiver itself. *)
Definition get_obj_state (obj : pyval) : pyval := obj.

Definition _arg_self : list string := ["self"; "cls"].

(** [square(x)], and [square(self, x)] as a method: the square of an
    integer, [ValueError] for a negative one, [TypeError] for anything
    else. *)
Definition square (u : unit) (args : list pyval) (kwargs : kwargs_t)
    : outcome pyval * unit :=
  match args with
  | [VInt z] | [VObject _; VInt z] =>
      if (z <? 0)%Z then (Raise (ValueError "negative"), u)
      else (Return (VInt (z * z)), u)
  | _ => (Raise (TypeError "an integer is required"), u)
  end.

Definition square_function : pyfunc := PyFunc IsFunction "square" ["x"].
Definition square_method : pyfunc := PyFunc IsFunction "square" ["self"; "x"].

Definition no_transformer : transformer := Transformer None false.

(** The parameters of a decoration: all defaults but [exceptions] and
    [stateful]. *)
Definition config (exceptions : pyval) (stateful : param pyval) : Config pyval :=
  MkConfig VNone exceptions stateful (PValue VNone) None (PValue VNone).

Definition decorate (cfg : Config pyval) (func : pyfunc) : outcome Decorated :=
  decorator hashkey typedkey get_obj_state _arg_self cfg no_transformer func.

(** What [decorate] makes of [square_function] and of [square_method]
    under [config exceptions stateful], for a [stateful] that is not set:
    a plain function with the cache the decorator owns, and a method with
    one cache per receiver and a key that leaves the receiver out. *)
Definition square_decorated (exceptions : pyval) : Decorated :=
  {| funcdef := MkFunctionDefinition false ["x"] false None false;
     funcname := "square";
     cache_binding := FunctionOwned;
     cache_key := λ args kwargs,
       hashkey (CacheKeyHelper.make_items_hashable args)
               (CacheKeyHelper.make_items_hashable_kw kwargs);
     cached_exceptions := normalize_exceptions exceptions;
     config_irrelevant := ["_transformer"; "key"; "stateful"; "shared"; "lock"] |}.

Definition square_method_decorated (exceptions : pyval) : Decorated :=
  {| funcdef := MkFunctionDefinition false ["self"; "x"] false (Some "self") true;
     funcname := "square";
     cache_binding := PerInstance;
     cache_key := λ args kwargs,
       match args with
       | [] => Raise (ValueError "not enough values to unpack (expected at least 1, got 0)")
       | _ :: args =>
           hashkey (CacheKeyHelper.make_items_hashable args)
                   (CacheKeyHelper.make_items_hashable_kw kwargs)
       end;
     cached_exceptions := normalize_exceptions exceptions;
     config_irrelevant := ["_transformer"; "key"; "lock"] |}.

(** An unbounded cache where every item weighs 1, and a cache of capacity
    1 where every item weighs 2. *)
Definition unbounded : CacheMixin.t pyval := CacheMixin.init None (λ _, 1).
Definition capacity_one : CacheMixin.t pyval := CacheMixin.init (Some 1) (λ _, 2).

(** The world right after decoration with the cache [c]. *)
Definition fresh (c : CacheMixin.t pyval) : World (K:=pyval) (U:=unit) :=
  MkWorld c ∅ ∅ () 0.

End Examples.

(** * Properties *)

(** ** The container *)

Section CacheFacts.

Context {K : Type} `{EqDecision K}.
Implicit Types (c : Cache.t K) (d : list (K * cached)) (k : K) (v : cached).

Lemma lookup_assign d k v : Cache.lookup (Cache.assign d k v) k = Some v.
Proof.
  induction d as [|[k' v'] d IH]; simpl.
  - by rewrite decide_True.
  - destruct (decide (k' = k)) as [->|Hne]; simpl.
    + by rewrite decide_True.
    + by rewrite decide_False.
Qed.

Lemma setitem_rejected c k v :
  Cache.setitem c k v = None ↔ Cache.above (Cache.getsizeof c v) (Cache.maxsize c) = true.
Proof.
  unfold Cache.setitem. destruct (Cache.above _ _); split; congruence.
Qed.

Lemma setitem_getitem c c' k v :
  Cache.setitem c k v = Some c' → Cache.getitem c' k = Some v.
Proof.
  unfold Cache.setitem, Cache.getitem.
  destruct (Cache.above _ _); [done|].
  intros [= <-]. simpl. apply lookup_assign.
Qed.

Lemma setitem_config c c' k v :
  Cache.setitem c k v = Some c' →
  Cache.maxsize c' = Cache.maxsize c ∧ Cache.getsizeof c' = Cache.getsizeof c.
Proof.
  unfold Cache.setitem. destruct (Cache.above _ _); [done|]. by intros [= <-].
Qed.

End CacheFacts.

(** ** The counting mixin *)

Section CacheMixinFacts.

Context {K : Type} `{EqDecision K}.
Implicit Types (m : CacheMixin.t K) (k : K) (v : cached).

Lemma at_rest_init maxsize getsizeof :
  CacheMixin.at_rest (CacheMixin.init (K:=K) maxsize getsizeof).
Proof. by repeat split. Qed.

Lemma at_rest_clone m : CacheMixin.at_rest (CacheMixin.clone m).
Proof. apply at_rest_init. Qed.

Lemma at_rest_clear m : CacheMixin.at_rest m → CacheMixin.at_rest (CacheMixin.clear m).
Proof. by intros (?&?&?&?). Qed.

Lemma at_rest_did_hit m : CacheMixin.at_rest m → CacheMixin.at_rest (CacheMixin.did_hit m).
Proof. by intros (?&?&?&?). Qed.

Lemma at_rest_did_miss m : CacheMixin.at_rest m → CacheMixin.at_rest (CacheMixin.did_miss m).
Proof. by intros (?&?&?&?). Qed.

Lemma at_rest_setitem m m' k v :
  CacheMixin.at_rest m → CacheMixin.setitem m k v = Some m' → CacheMixin.at_rest m'.
Proof.
  intros (?&?&?&?). unfold CacheMixin.setitem.
  destruct (Cache.setitem _ _ _); [|done]. by intros [= <-].
Qed.

Lemma getitem_result m k :
  (CacheMixin.getitem m k).2 = Cache.getitem (CacheMixin.base m) k ∧
  CacheMixin.base (CacheMixin.getitem m k).1 = CacheMixin.base m.
Proof.
  unfold CacheMixin.getitem, CacheMixin.super_getitem, CacheMixin.missing.
  destruct m as [b h mi u en mis hs ms ce]; simpl.
  destruct (en && negb hs); simpl;
    destruct (Cache.getitem b k); simpl; try done.
  - by destruct (en && negb ms).
  - by destruct (en && negb ms).
Qed.

End CacheMixinFacts.

(** ** The wrapper *)

Section WrapperFacts.

Import Decorator.

Context {K : Type} `{EqDecision K} {U : Type}.
Variable call : U → list pyval → kwargs_t → outcome pyval * U.

Implicit Types (m : CacheMixin.t K) (k : K) (v : cached) (w : World (K:=K) (U:=U)).
Implicit Types (l : location) (d : Decorated (K:=K)).

Lemma guarded_lookup_result m k :
  (guarded_lookup m k).2 = Cache.getitem (CacheMixin.base m) k ∧
  CacheMixin.base (guarded_lookup m k).1 = CacheMixin.base m.
Proof.
  unfold guarded_lookup, CacheMixin.counters_enter.
  pose proof (getitem_result
    (CacheMixin.with_counters_enabled m (CacheMixin.context_enable m)) k) as [Hr Hb].
  destruct (CacheMixin.getitem _ k) as [m2 r]; simpl in *. by rewrite Hr, Hb.
Qed.

Lemma guarded_lookup_counts m k :
  CacheMixin.at_rest m →
  (guarded_lookup m k).1 =
    match Cache.getitem (CacheMixin.base m) k with
    | Some _ => CacheMixin.did_hit m
    | None => CacheMixin.did_miss m
    end.
Proof.
  intros (Hh & Hm & Hmi & He).
  destruct m as [b h mi u en mis hs ms ce]; simpl in *; subst.
  unfold guarded_lookup, CacheMixin.getitem, CacheMixin.super_getitem,
    CacheMixin.missing; simpl.
  by destruct (Cache.getitem b k).
Qed.

Lemma guarded_store_base m k v :
  CacheMixin.base (guarded_store m k v) =
    default (CacheMixin.base m) (Cache.setitem (CacheMixin.base m) k v).
Proof.
  unfold guarded_store, CacheMixin.setitem.
  by destruct (Cache.setitem _ _ _).
Qed.

Lemma guarded_store_counters m k v :
  CacheMixin.hits (guarded_store m k v) = CacheMixin.hits m ∧
  CacheMixin.misses (guarded_store m k v) = CacheMixin.misses m.
Proof.
  unfold guarded_store, CacheMixin.setitem.
  by destruct (Cache.setitem _ _ _).
Qed.

Lemma at_rest_guarded_store m k v : CacheMixin.at_rest m → CacheMixin.at_rest (guarded_store m k v).
Proof.
  intros Hm. unfold guarded_store.
  destruct (CacheMixin.setitem m k v) eqn:E; [|done].
  by eapply at_rest_setitem.
Qed.

Lemma read_write w l m : read (write w l m) l = Some m.
Proof.
  destruct l as [|o f|i]; simpl.
  - done.
  - rewrite lookup_insert_eq. simpl. by rewrite lookup_insert_eq.
  - by rewrite lookup_insert_eq.
Qed.

Lemma read_write_ne w l l' m : l ≠ l' → read (write w l m) l' = read w l'.
Proof.
  intros Hne. destruct l as [|o f|i], l' as [|o' f'|i']; simpl; try done.
  - destruct (decide (o = o')) as [->|Ho].
    + rewrite lookup_insert_eq. simpl.
      rewrite lookup_insert_ne by congruence.
      by destruct (attached w !! o').
    + by rewrite lookup_insert_ne.
  - rewrite lookup_insert_ne; [done|congruence].
Qed.

Lemma write_user w l m :
  user (write w l m) = user w ∧ invocations (write w l m) = invocations w.
Proof. by destruct l. Qed.

(** Resolving the cache of a call touches neither the caches that exist
    nor the state of the decorated code. *)
Lemma get_cache_read d w args r w1 l m :
  get_cache d w args = (r, w1) → read w l = Some m → read w1 l = Some m.
Proof.
  unfold get_cache. destruct (cache_binding d) as [g dep sh| |].
  - destruct (g args); by intros [= <- <-].
  - destruct (get_self _ args) as [[]|]; try by intros [= <- <-].
    destruct (default ∅ (attached w !! id) !! funcname d) eqn:E;
      intros [= <- <-]; [done|].
    intros Hr.
    change (read (write w (Attached id (funcname d)) (CacheMixin.clone (own w))) l
            = Some m).
    rewrite read_write_ne; [done|].
    intros <-. simpl in Hr.
    destruct (attached w !! id); simpl in *; congruence.
  - by intros [= <- <-].
Qed.

Lemma get_cache_user d w args r w1 :
  get_cache d w args = (r, w1) →
  user w1 = user w ∧ invocations w1 = invocations w.
Proof.
  unfold get_cache. destruct (cache_binding d) as [g dep sh| |].
  - destruct (g args); by intros [= <- <-].
  - destruct (get_self _ args) as [[]|]; try by intros [= <- <-].
    destruct (default ∅ (attached w !! id) !! funcname d);
      by intros [= <- <-].
  - by intros [= <- <-].
Qed.

(** Once a call has resolved its cache, the same arguments resolve it
    again, whatever that cache has become, and nothing is created. *)
Lemma get_cache_again d w args l w1 w2 m :
  get_cache d w args = (Return (Some l), w1) →
  get_cache d (write w2 l m) args = (Return (Some l), write w2 l m).
Proof.
  unfold get_cache. destruct (cache_binding d) as [g dep sh| |].
  - destruct (g args) as [c|]; by intros [= -> <-].
  - destruct (get_self _ args) as [[]|]; try done.
    destruct (default ∅ (attached w !! id) !! funcname d) eqn:E;
      intros [= <- <-]; simpl;
      rewrite lookup_insert_eq; simpl; by rewrite lookup_insert_eq.
  - by intros [= <- <-].
Qed.

Lemma cache_accessor_again d w obj l w1 w2 m :
  cache_accessor d w obj = (Return (Some l), w1) →
  cache_accessor d (write w2 l m) obj = (Return (Some l), write w2 l m).
Proof.
  unfold cache_accessor.
  destruct (cache_binding d) as [g [] sh| |] eqn:E, obj as [o|];
    try (by intros [= <- <-]); try (by intros [= -> <-]);
    apply get_cache_again.
Qed.

Lemma wrapper_resolved d w args kwargs l w1 m k :
  get_cache d w args = (Return (Some l), w1) →
  read w1 l = Some m →
  cache_key d args kwargs = Return k →
  wrapper call d w args kwargs =
    (let '(r, m', w') := wrapper_on call d m k w1 args kwargs in (r, write w' l m')).
Proof. intros Hc Hr Hk. unfold wrapper. by rewrite Hc, Hr, Hk. Qed.

Lemma wrapper_on_hit d m k w args kwargs v :
  Cache.getitem (CacheMixin.base m) k = Some v →
  wrapper_on call d m k w args kwargs = (deliver v, (guarded_lookup m k).1, w).
Proof.
  intros Hv. unfold wrapper_on.
  pose proof (guarded_lookup_result m k) as [Hr _].
  destruct (guarded_lookup m k) as [m1 r]; simpl in *.
  rewrite Hr, Hv. done.
Qed.

Lemma wrapper_on_miss d m k w args kwargs :
  Cache.getitem (CacheMixin.base m) k = None →
  wrapper_on call d m k w args kwargs =
    (let '(r, w') := invoke call w args kwargs in
     match computed d r with
     | None => (r, (guarded_lookup m k).1, w')
     | Some v => (deliver v, guarded_store (guarded_lookup m k).1 k v, w')
     end).
Proof.
  intros Hv. unfold wrapper_on.
  pose proof (guarded_lookup_result m k) as [Hr _].
  destruct (guarded_lookup m k) as [m1 r]; simpl in *.
  rewrite Hr, Hv. done.
Qed.

(** A hit: the stored value is delivered, the callable is not invoked and
    the container is left as it is. *)
Lemma wrapper_hit d w args kwargs l w1 m k v :
  get_cache d w args = (Return (Some l), w1) →
  read w1 l = Some m →
  cache_key d args kwargs = Return k →
  Cache.getitem (CacheMixin.base m) k = Some v →
  ∃ w' m',
    wrapper call d w args kwargs = (deliver v, w') ∧
    read w' l = Some m' ∧
    CacheMixin.base m' = CacheMixin.base m ∧
    user w' = user w ∧
    invocations w' = invocations w.
Proof.
  intros Hc Hr Hk Hv.
  exists (write w1 l (guarded_lookup m k).1), (guarded_lookup m k).1.
  rewrite (wrapper_resolved _ _ _ _ _ _ _ _ Hc Hr Hk).
  rewrite (wrapper_on_hit _ _ _ _ _ _ _ Hv).
  destruct (get_cache_user _ _ _ _ _ Hc) as [Hu Hi].
  destruct (write_user w1 l (guarded_lookup m k).1) as [Hu' Hi'].
  repeat split; try congruence.
  - apply read_write.
  - apply guarded_lookup_result.
Qed.

(** A miss: the callable is invoked once. *)
Lemma wrapper_miss_invokes d w args kwargs l w1 m k r w' :
  get_cache d w args = (Return (Some l), w1) →
  read w1 l = Some m →
  cache_key d args kwargs = Return k →
  Cache.getitem (CacheMixin.base m) k = None →
  wrapper call d w args kwargs = (r, w') →
  invocations w' = S (invocations w).
Proof.
  intros Hc Hr Hk Hv.
  rewrite (wrapper_resolved _ _ _ _ _ _ _ _ Hc Hr Hk).
  rewrite (wrapper_on_miss _ _ _ _ _ _ Hv).
  destruct (get_cache_user _ _ _ _ _ Hc) as [Hu Hi].
  unfold invoke. destruct (call (user w1) args kwargs) as [r0 u0].
  destruct (computed d r0); intros [= <- <-];
    match goal with |- invocations (write ?a ?b ?c) = _ =>
      destruct (write_user a b c) as [_ ->] end; simpl; congruence.
Qed.

End WrapperFacts.

(** ** Call interception *)

Section Interception.

Import Decorator.

Context {K : Type} `{EqDecision K} {U : Type}.
Variable call : U → list pyval → kwargs_t → outcome pyval * U.

Implicit Types (m : CacheMixin.t K) (k : K) (v : cached) (w : World (K:=K) (U:=U)).
Implicit Types (l : location) (d : Decorated (K:=K)).

(** C1, as amended. A call that resolved the cache at [l] returned [x],
    and the container admits [x] (it is not too large for the capacity).
    Then the cache at [l] holds [x] under the key of the call; the same
    call made again is a hit, it returns [x] and the original callable is
    not invoked; and so is every call that resolves the same cache with an
    equal key while the item is still there. *)
Theorem memoized_in_same_cache d w args kwargs l w1 m k x w' :
  get_cache d w args = (Return (Some l), w1) →
  read w1 l = Some m →
  cache_key d args kwargs = Return k →
  Cache.above (Cache.getsizeof (CacheMixin.base m) (Value x))
              (Cache.maxsize (CacheMixin.base m)) = false →
  wrapper call d w args kwargs = (Return x, w') →
  (∃ m', read w' l = Some m' ∧
         Cache.getitem (CacheMixin.base m') k = Some (Value x)) ∧
  (∃ w'', wrapper call d w' args kwargs = (Return x, w'') ∧
          invocations w'' = invocations w') ∧
  (∀ wl ml args2 kwargs2 w2,
     read wl l = Some ml →
     Cache.getitem (CacheMixin.base ml) k = Some (Value x) →
     get_cache d wl args2 = (Return (Some l), w2) →
     cache_key d args2 kwargs2 = Return k →
     ∃ w'', wrapper call d wl args2 kwargs2 = (Return x, w'') ∧
            invocations w'' = invocations wl).
Proof.
  intros Hc Hr Hk Hfit Hw.
  assert (Hhit : ∀ wl ml args2 kwargs2 w2,
     read wl l = Some ml →
     Cache.getitem (CacheMixin.base ml) k = Some (Value x) →
     get_cache d wl args2 = (Return (Some l), w2) →
     cache_key d args2 kwargs2 = Return k →
     ∃ w'', wrapper call d wl args2 kwargs2 = (Return x, w'') ∧
            invocations w'' = invocations wl).
  { intros wl ml args2 kwargs2 w2 Hrl Hgl Hc2 Hk2.
    pose proof (get_cache_read _ _ _ _ _ _ _ Hc2 Hrl) as Hr2.
    destruct (wrapper_hit call _ _ _ _ _ _ _ _ _ Hc2 Hr2 Hk2 Hgl)
      as (w'' & m'' & Hw'' & _ & _ & _ & Hi).
    by exists w''. }
  assert (Hstored : ∃ wi m', w' = write wi l m' ∧
            Cache.getitem (CacheMixin.base m') k = Some (Value x)).
  { rewrite (wrapper_resolved _ _ _ _ _ _ _ _ _ Hc Hr Hk) in Hw.
    destruct (Cache.getitem (CacheMixin.base m) k) as [s|] eqn:Hs.
    - rewrite (wrapper_on_hit _ _ _ _ _ _ _ _ Hs) in Hw.
      injection Hw as Hd <-.
      destruct s as [y|e]; simpl in Hd; [|done]. injection Hd as ->.
      eexists _, _. split; [reflexivity|].
      by rewrite (proj2 (guarded_lookup_result m k)).
    - rewrite (wrapper_on_miss _ _ _ _ _ _ _ Hs) in Hw.
      destruct (invoke call w1 args kwargs) as [r wi].
      destruct (computed d r) as [s|] eqn:Hcomp.
      + injection Hw as Hd <-.
        destruct s as [y|e]; simpl in Hd; [|done]. injection Hd as ->.
        eexists _, _. split; [reflexivity|].
        rewrite guarded_store_base, (proj2 (guarded_lookup_result m k)).
        destruct (Cache.setitem (CacheMixin.base m) k (Value x)) as [c'|] eqn:Hset.
        * simpl. by eapply setitem_getitem.
        * apply setitem_rejected in Hset. congruence.
      + injection Hw as -> <-. discriminate Hcomp. }
  destruct Hstored as (wi & m' & -> & Hg).
  split; [|split; [|exact Hhit]].
  - exists m'. split; [apply read_write|exact Hg].
  - eapply Hhit; [apply read_write|exact Hg| |exact Hk].
    eapply get_cache_again, Hc.
Qed.

(** C2, as amended. A call that resolved the cache at [l] missed, the
    original callable raised [e], the [except] clause of the declared
    exceptions catches [e], and the container admits the wrapped exception.
    Then the call raises [e] and the cache at [l] holds [CachedException e]
    under the key; the same call made again raises the same [e] (type and
    message) without invoking the original callable; and so does every
    call that resolves the same cache with an equal key while the item is
    still there. *)
Theorem declared_exception_cached d w args kwargs l w1 m k e u' :
  get_cache d w args = (Return (Some l), w1) →
  read w1 l = Some m →
  cache_key d args kwargs = Return k →
  Cache.getitem (CacheMixin.base m) k = None →
  call (user w) args kwargs = (Raise e, u') →
  caught (cached_exceptions d) e = true →
  Cache.above (Cache.getsizeof (CacheMixin.base m) (CachedException e))
              (Cache.maxsize (CacheMixin.base m)) = false →
  ∃ w' m',
    wrapper call d w args kwargs = (Raise e, w') ∧
    read w' l = Some m' ∧
    Cache.getitem (CacheMixin.base m') k = Some (CachedException e) ∧
    invocations w' = S (invocations w) ∧
    (∃ w'', wrapper call d w' args kwargs = (Raise e, w'') ∧
            invocations w'' = invocations w') ∧
    (∀ wl ml args2 kwargs2 w2,
       read wl l = Some ml →
       Cache.getitem (CacheMixin.base ml) k = Some (CachedException e) →
       get_cache d wl args2 = (Return (Some l), w2) →
       cache_key d args2 kwargs2 = Return k →
       ∃ w'', wrapper call d wl args2 kwargs2 = (Raise e, w'') ∧
              invocations w'' = invocations wl).
Proof.
  intros Hc Hr Hk Hmiss Hcall Hcaught Hfit.
  assert (Hhit : ∀ wl ml args2 kwargs2 w2,
     read wl l = Some ml →
     Cache.getitem (CacheMixin.base ml) k = Some (CachedException e) →
     get_cache d wl args2 = (Return (Some l), w2) →
     cache_key d args2 kwargs2 = Return k →
     ∃ w'', wrapper call d wl args2 kwargs2 = (Raise e, w'') ∧
            invocations w'' = invocations wl).
  { intros wl ml args2 kwargs2 w2 Hrl Hgl Hc2 Hk2.
    pose proof (get_cache_read _ _ _ _ _ _ _ Hc2 Hrl) as Hr2.
    destruct (wrapper_hit call _ _ _ _ _ _ _ _ _ Hc2 Hr2 Hk2 Hgl)
      as (w'' & m'' & Hw'' & _ & _ & _ & Hi').
    by exists w''. }
  destruct (get_cache_user _ _ _ _ _ Hc) as [Hu Hi].
  rewrite (wrapper_resolved _ _ _ _ _ _ _ _ _ Hc Hr Hk).
  rewrite (wrapper_on_miss _ _ _ _ _ _ _ Hmiss).
  unfold invoke. rewrite Hu, Hcall. simpl. rewrite Hcaught.
  assert (Hg : Cache.getitem
                 (CacheMixin.base
                    (guarded_store (guarded_lookup m k).1 k (CachedException e))) k
               = Some (CachedException e)).
  { rewrite guarded_store_base, (proj2 (guarded_lookup_result m k)).
    destruct (Cache.setitem (CacheMixin.base m) k (CachedException e))
      as [c'|] eqn:Hset.
    - simpl. by eapply setitem_getitem.
    - apply setitem_rejected in Hset. congruence. }
  eexists _, _. split; [reflexivity|].
  split; [apply read_write|]. split; [exact Hg|]. split; [|split; [|exact Hhit]].
  - match goal with |- invocations (write ?a ?b ?c) = _ =>
      destruct (write_user a b c) as [_ ->] end. simpl. congruence.
  - eapply Hhit; [apply read_write|exact Hg| |exact Hk].
    eapply get_cache_again, Hc.
Qed.

(** C6. On a miss, when the original callable raises an exception that the
    [except] clause of the declared exceptions does not catch, the wrapper
    raises that exception and stores nothing: the container of the cache
    is exactly what it was before the call, and the same call made again
    invokes the original callable again. *)
Theorem undeclared_exception_not_stored d w args kwargs l w1 m k e u' :
  get_cache d w args = (Return (Some l), w1) →
  read w1 l = Some m →
  cache_key d args kwargs = Return k →
  Cache.getitem (CacheMixin.base m) k = None →
  call (user w) args kwargs = (Raise e, u') →
  caught (cached_exceptions d) e = false →
  ∃ w' m',
    wrapper call d w args kwargs = (Raise e, w') ∧
    read w' l = Some m' ∧
    CacheMixin.base m' = CacheMixin.base m ∧
    invocations w' = S (invocations w) ∧
    (∀ r w'', wrapper call d w' args kwargs = (r, w'') →
              invocations w'' = S (invocations w')).
Proof.
  intros Hc Hr Hk Hmiss Hcall Hcaught.
  destruct (get_cache_user _ _ _ _ _ Hc) as [Hu Hi].
  rewrite (wrapper_resolved _ _ _ _ _ _ _ _ _ Hc Hr Hk).
  rewrite (wrapper_on_miss _ _ _ _ _ _ _ Hmiss).
  unfold invoke. rewrite Hu, Hcall. simpl. rewrite Hcaught.
  eexists _, _. split; [reflexivity|].
  split; [apply read_write|].
  split; [apply guarded_lookup_result|]. split.
  - match goal with |- invocations (write ?a ?b ?c) = _ =>
      destruct (write_user a b c) as [_ ->] end. simpl. congruence.
  - intros r w''. eapply wrapper_miss_invokes.
    + eapply get_cache_again, Hc.
    + apply read_write.
    + exact Hk.
    + by rewrite (proj2 (guarded_lookup_result m k)).
Qed.

(** C7. On a miss, when the container rejects the computed value as too
    large for its capacity, the wrapper passes over the rejection and
    still returns the computed value; the container is unchanged by the
    attempted store, so its current size is what it was, and stays 0 for
    a cache that was empty. *)
Theorem capacity_rejection_not_fatal d w args kwargs l w1 m k x u' :
  get_cache d w args = (Return (Some l), w1) →
  read w1 l = Some m →
  cache_key d args kwargs = Return k →
  Cache.getitem (CacheMixin.base m) k = None →
  call (user w) args kwargs = (Return x, u') →
  Cache.setitem (CacheMixin.base m) k (Value x) = None →
  ∃ w' m',
    wrapper call d w args kwargs = (Return x, w') ∧
    read w' l = Some m' ∧
    CacheMixin.base m' = CacheMixin.base m ∧
    CacheMixin.info_currsize (CacheMixin.info m')
      = CacheMixin.info_currsize (CacheMixin.info m) ∧
    (Cache.data (CacheMixin.base m) = [] →
     CacheMixin.info_currsize (CacheMixin.info m') = 0).
Proof.
  intros Hc Hr Hk Hmiss Hcall Hrej.
  destruct (get_cache_user _ _ _ _ _ Hc) as [Hu Hi].
  rewrite (wrapper_resolved _ _ _ _ _ _ _ _ _ Hc Hr Hk).
  rewrite (wrapper_on_miss _ _ _ _ _ _ _ Hmiss).
  unfold invoke. rewrite Hu, Hcall. simpl.
  eexists _, _. split; [reflexivity|].
  split; [apply read_write|].
  assert (Hb : CacheMixin.base (guarded_store (guarded_lookup m k).1 k (Value x))
               = CacheMixin.base m).
  { by rewrite guarded_store_base, (proj2 (guarded_lookup_result m k)), Hrej. }
  split; [exact Hb|].
  unfold CacheMixin.info, CacheMixin._currsize_info; simpl. rewrite Hb.
  split; [done|]. intros Hd. unfold Cache.currsize. by rewrite Hd.
Qed.

(** C8. A call that resolves a cache and derives its key increments
    exactly one counter of that cache, by one: [hits] when the lookup
    finds the key, [misses] when it does not, whatever the computation on
    the miss then does (return, raise, be stored or not). The missing-key
    hook that the lookup goes through on a miss adds nothing, and the
    cache is left at rest. *)
Theorem one_counter_increment_per_call d w args kwargs l w1 m k r w' :
  get_cache d w args = (Return (Some l), w1) →
  read w1 l = Some m →
  CacheMixin.at_rest m →
  cache_key d args kwargs = Return k →
  wrapper call d w args kwargs = (r, w') →
  ∃ m',
    read w' l = Some m' ∧
    CacheMixin.at_rest m' ∧
    match Cache.getitem (CacheMixin.base m) k with
    | Some _ =>
        CacheMixin.hits m' = CacheMixin.hits m + 1 ∧
        CacheMixin.misses m' = CacheMixin.misses m
    | None =>
        CacheMixin.hits m' = CacheMixin.hits m ∧
        CacheMixin.misses m' = CacheMixin.misses m + 1
    end.
Proof.
  intros Hc Hr Hm Hk.
  rewrite (wrapper_resolved _ _ _ _ _ _ _ _ _ Hc Hr Hk).
  pose proof (guarded_lookup_counts m k Hm) as Hcount.
  destruct (Cache.getitem (CacheMixin.base m) k) as [s|] eqn:Hs.
  - rewrite (wrapper_on_hit _ _ _ _ _ _ _ _ Hs), Hcount.
    intros [= <- <-]. eexists. split; [apply read_write|].
    split; [by apply at_rest_did_hit|done].
  - rewrite (wrapper_on_miss _ _ _ _ _ _ _ Hs), Hcount.
    destruct (invoke call w1 args kwargs) as [r0 wi].
    destruct (computed d r0) as [s|]; intros [= <- <-];
      (eexists; split; [apply read_write|]).
    + split; [by apply at_rest_guarded_store, at_rest_did_miss|].
      by destruct (guarded_store_counters (CacheMixin.did_miss m) k s) as [-> ->].
    + split; [by apply at_rest_did_miss|done].
Qed.

(** C9. [cache_clear()] on the cache the accessor resolves succeeds;
    afterwards [cache_info()] reports 0 hits, 0 misses and a current size
    of 0, the cleared cache holds no key, and any call that resolves it is
    a miss: it invokes the original callable. *)
Theorem clear_resets_everything d w obj_self l w1 m :
  cache_accessor d w obj_self = (Return (Some l), w1) →
  read w1 l = Some m →
  ∃ w',
    cache_clear d w obj_self = (Return (), w') ∧
    (∃ i, cache_info d w' obj_self = (Return i, w') ∧
          CacheMixin.info_hits i = 0 ∧
          CacheMixin.info_misses i = 0 ∧
          CacheMixin.info_currsize i = 0) ∧
    (∃ m', read w' l = Some m' ∧
           ∀ k, Cache.getitem (CacheMixin.base m') k = None) ∧
    (∀ args kwargs k w2 r w'',
       get_cache d w' args = (Return (Some l), w2) →
       cache_key d args kwargs = Return k →
       wrapper call d w' args kwargs = (r, w'') →
       invocations w'' = S (invocations w')).
Proof.
  intros Hc Hr. exists (write w1 l (CacheMixin.clear m)).
  split; [|split; [|split]].
  - unfold cache_clear. by rewrite Hc, Hr.
  - exists (CacheMixin.info (CacheMixin.clear m)). split; [|done].
    unfold cache_info.
    by rewrite (cache_accessor_again _ _ _ _ _ _ _ Hc), read_write.
  - exists (CacheMixin.clear m). split; [apply read_write|done].
  - intros args kwargs k w2 r w'' Hc2 Hk.
    eapply wrapper_miss_invokes; [exact Hc2| |exact Hk|].
    + eapply get_cache_read; [exact Hc2|apply read_write].
    + done.
Qed.

End Interception.

(** ** Key derivation *)

Section KeyDerivation.

Import CacheKeyHelper.

Context {K : Type}.
Variable hashkey typedkey : list pyval → kwargs_t → outcome K.
Variable get_obj_state : pyval → pyval.

(** C3. For a bound or unbound method decorated without [stateful], the
    key function is built, and the key it derives does not depend on the
    receiver: two receivers with the same remaining positional and keyword
    arguments get equal keys. *)
Theorem receiver_stripped_from_key funcdef typed (cfg : Config K) :
  isunboundmethod funcdef || isboundmethod funcdef = true →
  param_truthy (stateful cfg) = false →
  ∃ key_func,
    make_key_func hashkey typedkey get_obj_state funcdef typed cfg = Return key_func ∧
    ∀ obj1 obj2 args kwargs,
      key_func (obj1 :: args) kwargs = key_func (obj2 :: args) kwargs.
Proof.
  intros Hm Hs. unfold make_key_func. rewrite Hm, Hs.
  eexists. split; [reflexivity|]. done.
Qed.

(** C5, as amended. A custom key function (one that [get_typed_from_key]
    does not recognize as the standard typed variant) is applied to the
    arguments of the call after they have been made hashable, exactly as
    the standard key functions are: to [make_items_hashable] of the
    positional arguments (without the receiver, for a method) and of the
    keyword arguments. *)
Theorem custom_key_gets_hashable_arguments funcdef typed (cfg : Config K) kf :
  key cfg = Some kf →
  get_typed_from_key (Some kf) = None →
  (isunboundmethod funcdef || isboundmethod funcdef) && param_truthy (stateful cfg)
    = false →
  ∃ key_func,
    make_key_func hashkey typedkey get_obj_state funcdef typed cfg = Return key_func ∧
    ∀ args kwargs,
      key_func args kwargs =
        if isunboundmethod funcdef || isboundmethod funcdef then
          match args with
          | [] => Raise (ValueError "not enough values to unpack (expected at least 1, got 0)")
          | _ :: args =>
              key_call kf (make_items_hashable args) (make_items_hashable_kw kwargs)
          end
        else key_call kf (make_items_hashable args) (make_items_hashable_kw kwargs).
Proof.
  intros Hk Ht Hs. unfold make_key_func. rewrite Hk, Ht. simpl.
  destruct (isunboundmethod funcdef || isboundmethod funcdef); simpl in *.
  - rewrite Hs. eexists. split; [reflexivity|]. done.
  - eexists. split; [reflexivity|]. done.
Qed.

End KeyDerivation.

(** ** Decoration *)

Section Decoration.

Import Decorator.

Context {K : Type}.
Variable hashkey typedkey : list pyval → kwargs_t → outcome K.
Variable get_obj_state : pyval → pyval.
Variable _arg_self : list string.

#[local] Abbreviation decorator := (decorator hashkey typedkey get_obj_state _arg_self).

(** C4, as amended. On a plain function (neither a bound method nor a
    callable with a receiver parameter) the [stateful] option is ignored:
    decoration gives the same result whatever its value, lists it among
    the irrelevant parameters, and succeeds whenever the shared cache and
    the lock are not given as getters. *)
Theorem stateful_ignored_on_plain_function tr func fd ty ex sh ky lk :
  FunctionDefinition_init _arg_self func tr = Return fd →
  isboundmethod fd || isunboundmethod fd = false →
  (∀ st st', decorator (MkConfig ty ex st sh ky lk) tr func
             = decorator (MkConfig ty ex st' sh ky lk) tr func) ∧
  (∀ st d, decorator (MkConfig ty ex st sh ky lk) tr func = Return d →
           "stateful" ∈ config_irrelevant d) ∧
  (∀ st v lv, sh = PValue v → lk = PValue lv →
     ∃ d, decorator (MkConfig ty ex st sh ky lk) tr func = Return d).
Proof.
  intros Hfd Hplain.
  assert (Hplain' : isunboundmethod fd || isboundmethod fd = false)
    by (by rewrite orb_comm).
  assert (Hu : isunboundmethod fd = false)
    by (by apply orb_false_iff in Hplain as [_ ?]).
  split; [|split].
  - intros st st'. unfold Decorator.decorator. rewrite Hfd. simpl.
    rewrite Hplain. unfold CacheKeyHelper.make_key_func. simpl.
    by rewrite Hplain'.
  - intros st d. unfold Decorator.decorator. rewrite Hfd. simpl.
    rewrite Hplain, Hu. unfold CacheKeyHelper.make_key_func. simpl.
    rewrite Hplain'.
    destruct sh as [v|g]; simpl.
    + rewrite andb_false_r. simpl. destruct lk as [lv|g]; simpl.
      * intros [= <-]. simpl.
        destruct (truthy lv); set_solver.
      * destruct (get_accessor fd (fn_name func) g "Lock"); simpl; [|done].
        intros [= <-]. simpl. set_solver.
    + destruct (get_accessor fd (fn_name func) g "Shared cache") as [[gc dep]|];
        simpl; [|done].
      destruct lk as [lv|g']; simpl.
      * intros [= <-]. simpl. destruct (truthy lv); set_solver.
      * destruct (get_accessor fd (fn_name func) g' "Lock"); simpl; [|done].
        intros [= <-]. simpl. set_solver.
  - intros st v lv -> ->. unfold Decorator.decorator. rewrite Hfd. simpl.
    rewrite Hplain, Hu. unfold CacheKeyHelper.make_key_func. simpl.
    rewrite Hplain'. rewrite andb_false_r. simpl. eauto.
Qed.

(** C10. The [exceptions] parameter has two edges. A truthy value that
    is not iterable and is not a subclass of [Exception] (such as [True],
    or any plain object) stands for [Exception]: the [except] clause of
    the wrapper catches, and so caches, every exception whose class is
    [Exception] or derives from it. An iterable that holds no subclass of
    [Exception] stands for what declaring nothing stands for, the sentinel
    class: no exception other than an instance of the sentinel is caught,
    so none is cached. *)
Theorem exceptions_parameter_edges :
  (∀ v, truthy v = true → py_iter v = None → exception_class v = None →
     normalize_exceptions v = ExcClass CException ∧
     ∀ e, issubclass (exc_type e) CException = true →
          caught (normalize_exceptions v) e = true) ∧
  (∀ v items, py_iter v = Some items →
     Forall (λ x, exception_class x = None) items →
     normalize_exceptions v = normalize_exceptions VNone ∧
     ∀ e, issubclass (exc_type e) CNonException = false →
          caught (normalize_exceptions v) e = false).
Proof.
  split.
  - intros v Ht Hi Hc. unfold normalize_exceptions. rewrite Ht, Hi, Hc.
    split; [done|]. by intros e He.
  - intros v items Hi Hall.
    assert (Ho : omap exception_class items = []).
    { clear Hi. induction Hall as [|x xs Hx _ IH]; simpl; [done|].
      by rewrite Hx. }
    assert (Hn : normalize_exceptions v = ExcClass CNonException).
    { unfold normalize_exceptions. rewrite Hi, Ho. by destruct (truthy v). }
    rewrite Hn. split; [done|]. by intros e He.
Qed.

End Decoration.

(** ** The properties at concrete callables *)

Section Concrete.

Import Decorator Examples.

Example make_obj_hashable_nested :
  CacheKeyHelper.make_obj_hashable
    (VList [VInt 1; VStr "ab"; VDict [(VStr "k", VList [VNone])];
            VCacheInstance 7 [(VInt 1, VList [])]])
  = VTuple [VInt 1; VStr "ab"; VHashableDict [(VStr "k", VTuple [VNone])];
            VCacheInstance 7 [(VInt 1, VList [])]].
Proof. reflexivity. Qed.

Example get_typed_from_key_names :
  CacheKeyHelper.get_typed_from_key
    (Some (KeyFunction "typedkey" hashkey)) = Some true ∧
  CacheKeyHelper.get_typed_from_key
    (Some (KeyFunction "hashkey" hashkey)) = None ∧
  CacheKeyHelper.get_typed_from_key (Some args_key) = None ∧
  CacheKeyHelper.get_typed_from_key (K:=pyval) None = None.
Proof. vm_compute. repeat split. Qed.

Example normalize_exceptions_declared :
  normalize_exceptions (VClass CValueError) = ExcClass CValueError ∧
  normalize_exceptions (VTuple [VClass CValueError; VInt 0; VClass CKeyError])
    = ExcTuple [CValueError; CKeyError] ∧
  normalize_exceptions VNone = ExcClass CNonException ∧
  normalize_exceptions (VClass CKeyboardInterrupt) = ExcClass CException ∧
  normalize_exceptions (VStr "ValueError") = ExcClass CNonException.
Proof. vm_compute. repeat split. Qed.

Example caught_by_subclass :
  caught (ExcClass CLookupError) (PyExc CKeyError "k") = true ∧
  caught (ExcTuple [CValueError; CKeyError]) (TypeError "t") = false ∧
  caught (ExcClass CException) (PyExc CKeyboardInterrupt "") = false ∧
  caught (ExcClass CValueError) (PyExc (CUser "Negative" CValueError) "n") = true.
Proof. vm_compute. repeat split. Qed.

Example classmethod_object_refused :
  decorate (config VNone (PValue VNone)) (PyFunc IsClassmethodObject "f" ["cls"])
  = Raise (ValueError "Cannot cache classmethod. Use @cached.classmethod instead of @classmethod.").
Proof. reflexivity. Qed.

(** The decoration-time error of [check_accessor_allowed]: a shared-cache
    getter that takes the receiver, on a function without receiver. *)
Example shared_getter_refused_on_plain_function :
  decorator hashkey typedkey get_obj_state _arg_self
    (MkConfig VNone VNone (PValue VNone)
       (PGetter (Accessor PlainCallable "cache_of" (Finite 1) (λ _ _, Some 0)))
       None (PValue VNone))
    no_transformer square_function
  = Raise (ValueError
      "Shared cache getter with object argument used in non-method function: cache_of.").
Proof. reflexivity. Qed.

Example lookup_counts_once :
  let m := guarded_store (K:=pyval) unbounded (VInt 1) (Value (VInt 2)) in
  let '(m1, r1) := guarded_lookup m (VInt 1) in
  let '(m2, r2) := guarded_lookup m1 (VInt 5) in
  r1 = Some (Value (VInt 2)) ∧ r2 = None ∧
  CacheMixin.hits m2 = 1 ∧ CacheMixin.misses m2 = 1 ∧
  CacheMixin.counters_enabled m2 = false ∧
  CacheMixin.counters_hits_suspended m2 = false ∧
  CacheMixin.counters_misses_suspended m2 = false.
Proof. vm_compute. repeat split. Qed.

Example eviction_makes_room :
  let c := Cache.Make (K:=nat) [] (Some 2) (λ _, 1) in
  (c' ← Cache.setitem c 1 (Value (VInt 1));
   c' ← Cache.setitem c' 2 (Value (VInt 2));
   c' ← Cache.setitem c' 3 (Value (VInt 3));
   Some (Cache.data c'))
  = Some [(2, Value (VInt 2)); (3, Value (VInt 3))].
Proof. reflexivity. Qed.

Lemma decorate_square_function exceptions stateful :
  decorate (config exceptions stateful) square_function
  = Return (square_decorated exceptions).
Proof. reflexivity. Qed.

Lemma decorate_square_method exceptions :
  decorate (config exceptions (PValue VNone)) square_method
  = Return (square_method_decorated exceptions).
Proof. reflexivity. Qed.

(** C1 refuted as stated: key-equal argument lists, [typed] off and no
    [stateful], and yet the second call is no hit. With one cache per
    receiver, [a.square(3)] and then [b.square(3)] derive the same key and
    the callable is invoked for both; and when the container rejects the
    value, [square(3)] twice invokes it twice. *)
Lemma equal_keys_without_hit :
  (decorate (config VNone (PValue VNone)) square_method
     = Return (square_method_decorated VNone) ∧
   let d := square_method_decorated VNone in
   let '(r1, w1) := wrapper square d (fresh unbounded) [VObject 1; VInt 3] [] in
   let '(r2, w2) := wrapper square d w1 [VObject 2; VInt 3] [] in
   cache_key d [VObject 1; VInt 3] [] = cache_key d [VObject 2; VInt 3] [] ∧
   r1 = Return (VInt 9) ∧ invocations w1 = 1 ∧
   r2 = Return (VInt 9) ∧ invocations w2 = 2) ∧
  (decorate (config VNone (PValue VNone)) square_function
     = Return (square_decorated VNone) ∧
   let d := square_decorated VNone in
   let '(r1, w1) := wrapper square d (fresh capacity_one) [VInt 3] [] in
   let '(r2, w2) := wrapper square d w1 [VInt 3] [] in
   r1 = Return (VInt 9) ∧ invocations w1 = 1 ∧
   r2 = Return (VInt 9) ∧ invocations w2 = 2).
Proof. split; (split; [reflexivity|vm_compute; repeat split]). Qed.

Lemma memoized_in_same_cache_witness :
  let d := square_decorated VNone in
  let w' := (wrapper square d (fresh unbounded) [VInt 3] []).2 in
  ∃ w'', wrapper square d w' [VInt 3] [] = (Return (VInt 9), w'') ∧
         invocations w'' = 1.
Proof.
  intros d w'.
  destruct (memoized_in_same_cache square d (fresh unbounded) [VInt 3] []
              Own (fresh unbounded) unbounded (VTuple [VInt 3]) (VInt 9) w')
    as (_ & Hagain & _); try reflexivity.
  exact Hagain.
Defined.

(** C2 refuted as stated: [ValueError] is declared and raised by the first
    call, and yet a later key-equal call invokes the callable again. With
    one cache per receiver, [a.square(-3)] and then [b.square(-3)]; and
    when the container rejects the wrapped exception, which is then not
    stored, [square(-3)] twice. *)
Lemma declared_exception_recomputed :
  (decorate (config (VClass CValueError) (PValue VNone)) square_method
     = Return (square_method_decorated (VClass CValueError)) ∧
   let d := square_method_decorated (VClass CValueError) in
   let '(r1, w1) := wrapper square d (fresh unbounded) [VObject 1; VInt (-3)] [] in
   let '(r2, w2) := wrapper square d w1 [VObject 2; VInt (-3)] [] in
   cache_key d [VObject 1; VInt (-3)] [] = cache_key d [VObject 2; VInt (-3)] [] ∧
   r1 = Raise (ValueError "negative") ∧ invocations w1 = 1 ∧
   r2 = Raise (ValueError "negative") ∧ invocations w2 = 2) ∧
  (decorate (config (VClass CValueError) (PValue VNone)) square_function
     = Return (square_decorated (VClass CValueError)) ∧
   let d := square_decorated (VClass CValueError) in
   let '(r1, w1) := wrapper square d (fresh capacity_one) [VInt (-3)] [] in
   let '(r2, w2) := wrapper square d w1 [VInt (-3)] [] in
   r1 = Raise (ValueError "negative") ∧ invocations w1 = 1 ∧
   (CacheMixin.base <$> read w1 Own) = Some (CacheMixin.base capacity_one) ∧
   r2 = Raise (ValueError "negative") ∧ invocations w2 = 2).
Proof. split; (split; [reflexivity|vm_compute; repeat split]). Qed.

Lemma declared_exception_cached_witness :
  let d := square_decorated (VClass CValueError) in
  ∃ w' m',
    wrapper square d (fresh unbounded) [VInt (-3)] []
      = (Raise (ValueError "negative"), w') ∧
    read w' Own = Some m' ∧
    Cache.getitem (CacheMixin.base m') (VTuple [VInt (-3)])
      = Some (CachedException (ValueError "negative")) ∧
    invocations w' = 1 ∧
    ∃ w'', wrapper square d w' [VInt (-3)] []
             = (Raise (ValueError "negative"), w'') ∧
           invocations w'' = invocations w'.
Proof.
  intros d.
  destruct (declared_exception_cached square d (fresh unbounded) [VInt (-3)] []
              Own (fresh unbounded) unbounded (VTuple [VInt (-3)])
              (ValueError "negative") ())
    as (w' & m' & Hw & Hr & Hg & Hi & Hagain & _); try reflexivity.
  exists w', m'. repeat split; assumption.
Defined.

Lemma receiver_stripped_from_key_witness :
  ∃ key_func,
    CacheKeyHelper.make_key_func hashkey typedkey get_obj_state
      (MkFunctionDefinition false ["self"; "x"] false (Some "self") true)
      (Some false) (config VNone (PValue VNone)) = Return key_func ∧
    key_func [VObject 1; VInt 3] [("n", VList [VInt 1])]
      = key_func [VObject 2; VInt 3] [("n", VList [VInt 1])].
Proof.
  destruct (receiver_stripped_from_key hashkey typedkey get_obj_state
              (MkFunctionDefinition false ["self"; "x"] false (Some "self") true)
              (Some false) (config VNone (PValue VNone)) eq_refl eq_refl)
    as (key_func & Hk & Heq).
  exists key_func. split; [exact Hk|apply Heq].
Defined.

(** C4 refuted as stated: [square] has no receiver parameter, it is
    decorated with [stateful=True], and with a state getter that takes the
    object, and decoration succeeds; the decorated function is called
    without error. *)
Lemma stateful_accepted_on_plain_function :
  FunctionDefinition_init _arg_self square_function no_transformer
    = Return (MkFunctionDefinition false ["x"] false None false) ∧
  param_truthy (PValue (R:=pyval) (VBool true)) = true ∧
  decorate (config VNone (PValue (VBool true))) square_function
    = Return (square_decorated VNone) ∧
  decorate (config VNone
              (PGetter (Accessor PlainCallable "state_of" (Finite 1)
                          (λ obj _, default VNone obj))))
           square_function
    = Return (square_decorated VNone) ∧
  (let d := square_decorated VNone in
   let '(r1, w1) := wrapper square d (fresh unbounded) [VInt 3] [] in
   r1 = Return (VInt 9)).
Proof. repeat split. Qed.

Lemma stateful_ignored_on_plain_function_witness :
  decorate (config VNone (PValue (VBool true))) square_function
    = decorate (config VNone (PValue VNone)) square_function ∧
  "stateful" ∈ config_irrelevant (square_decorated VNone) ∧
  ∃ d, decorate (config VNone (PValue (VBool true))) square_function = Return d.
Proof.
  destruct (stateful_ignored_on_plain_function hashkey typedkey get_obj_state
              _arg_self no_transformer square_function
              (MkFunctionDefinition false ["x"] false None false)
              VNone VNone (PValue VNone) None (PValue VNone) eq_refl eq_refl)
    as (Hsame & Hirr & Hok).
  split; [apply Hsame|]. split.
  - apply (Hirr (PValue VNone)). reflexivity.
  - exact (Hok (PValue (VBool true)) VNone VNone eq_refl eq_refl).
Defined.

(** C5 refuted as stated: the custom key function [args_key], which
    returns the tuple of the arguments it is given, is configured on a
    plain function and called with a list; it is handed the list made
    hashable (a tuple), not the list. *)
Lemma custom_key_not_given_raw_arguments :
  CacheKeyHelper.get_typed_from_key (Some args_key) = None ∧
  ∃ key_func,
    CacheKeyHelper.make_key_func hashkey typedkey get_obj_state
      (MkFunctionDefinition false ["x"] false None false) None
      (MkConfig VNone VNone (PValue VNone) (PValue VNone) (Some args_key)
         (PValue VNone)) = Return key_func ∧
    key_func [VList [VInt 1; VInt 2]] [] = Return (VTuple [VTuple [VInt 1; VInt 2]]) ∧
    key_call args_key [VList [VInt 1; VInt 2]] []
      = Return (VTuple [VList [VInt 1; VInt 2]]) ∧
    key_func [VList [VInt 1; VInt 2]] [] ≠ key_call args_key [VList [VInt 1; VInt 2]] [].
Proof. split; [reflexivity|]. eexists. repeat split. discriminate. Qed.

Lemma custom_key_gets_hashable_arguments_witness :
  ∃ key_func,
    CacheKeyHelper.make_key_func hashkey typedkey get_obj_state
      (MkFunctionDefinition false ["x"] false None false) None
      (MkConfig VNone VNone (PValue VNone) (PValue VNone) (Some args_key)
         (PValue VNone)) = Return key_func ∧
    key_func [VList [VInt 1; VInt 2]] [] = Return (VTuple [VTuple [VInt 1; VInt 2]]).
Proof.
  destruct (custom_key_gets_hashable_arguments hashkey typedkey get_obj_state
              (MkFunctionDefinition false ["x"] false None false) None
              (MkConfig VNone VNone (PValue VNone) (PValue VNone) (Some args_key)
                 (PValue VNone)) args_key eq_refl eq_refl eq_refl)
    as (key_func & Hk & Heq).
  exists key_func. split; [exact Hk|]. rewrite Heq. reflexivity.
Defined.

Lemma undeclared_exception_not_stored_witness :
  let d := square_decorated (VClass CValueError) in
  ∃ w' m',
    wrapper square d (fresh unbounded) [VStr "a"] []
      = (Raise (TypeError "an integer is required"), w') ∧
    read w' Own = Some m' ∧
    CacheMixin.base m' = CacheMixin.base unbounded ∧
    invocations w' = 1 ∧
    (∀ r w'', wrapper square d w' [VStr "a"] [] = (r, w'') → invocations w'' = 2).
Proof.
  intros d.
  destruct (undeclared_exception_not_stored square d (fresh unbounded) [VStr "a"] []
              Own (fresh unbounded) unbounded (VTuple [VStr "a"])
              (TypeError "an integer is required") ()
              eq_refl eq_refl eq_refl eq_refl eq_refl eq_refl)
    as (w' & m' & Hw & Hr & Hb & Hi & Hnext).
  exists w', m'. repeat split; try assumption.
  intros r w'' Hw''. rewrite (Hnext r w'' Hw''). by rewrite Hi.
Defined.

Lemma capacity_rejection_not_fatal_witness :
  let d := square_decorated VNone in
  ∃ w' m',
    wrapper square d (fresh capacity_one) [VInt 3] [] = (Return (VInt 9), w') ∧
    read w' Own = Some m' ∧
    CacheMixin.info_currsize (CacheMixin.info m') = 0.
Proof.
  intros d.
  destruct (capacity_rejection_not_fatal square d (fresh capacity_one) [VInt 3] []
              Own (fresh capacity_one) capacity_one (VTuple [VInt 3]) (VInt 9) ()
              eq_refl eq_refl eq_refl eq_refl eq_refl eq_refl)
    as (w' & m' & Hw & Hr & _ & _ & Hz).
  exists w', m'. repeat split; try assumption. by apply Hz.
Defined.

Lemma one_counter_increment_per_call_witness :
  let d := square_decorated VNone in
  let '(r, w') := wrapper square d (fresh unbounded) [VInt 3] [] in
  ∃ m', read w' Own = Some m' ∧
        CacheMixin.hits m' = 0 ∧ CacheMixin.misses m' = 1.
Proof.
  intros d.
  destruct (wrapper square d (fresh unbounded) [VInt 3] []) as [r w'] eqn:Hw.
  destruct (one_counter_increment_per_call square d (fresh unbounded) [VInt 3] []
              Own (fresh unbounded) unbounded (VTuple [VInt 3]) r w'
              eq_refl eq_refl (at_rest_init None (λ _, 1)) eq_refl Hw)
    as (m' & Hr & _ & Hh & Hm).
  exists m'. split; [exact Hr|]. split; [exact Hh|exact Hm].
Defined.

Lemma clear_resets_everything_witness :
  let d := square_decorated VNone in
  let w := (wrapper square d (fresh unbounded) [VInt 3] []).2 in
  ∃ w',
    cache_clear d w None = (Return (), w') ∧
    (∃ i, cache_info d w' None = (Return i, w') ∧
          CacheMixin.info_hits i = 0 ∧
          CacheMixin.info_misses i = 0 ∧
          CacheMixin.info_currsize i = 0) ∧
    (∀ r w'', wrapper square d w' [VInt 3] [] = (r, w'') →
              invocations w'' = S (invocations w')).
Proof.
  intros d w.
  destruct (clear_resets_everything square d w None Own w (own w))
    as (w' & Hc & Hi & _ & Hnext).
  - reflexivity.
  - reflexivity.
  - exists w'. split; [exact Hc|]. split; [exact Hi|].
    intros r w''. apply (Hnext [VInt 3] [] (VTuple [VInt 3]) w'); reflexivity.
Defined.

Lemma exceptions_parameter_edges_witness :
  (normalize_exceptions (VBool true) = ExcClass CException ∧
   caught (normalize_exceptions (VBool true)) (TypeError "an integer is required")
     = true) ∧
  (normalize_exceptions (VTuple [VInt 1; VClass CKeyboardInterrupt])
     = normalize_exceptions VNone ∧
   caught (normalize_exceptions (VTuple [VInt 1; VClass CKeyboardInterrupt]))
     (TypeError "an integer is required") = false).
Proof.
  destruct exceptions_parameter_edges as [Hscalar Hiter]. split.
  - destruct (Hscalar (VBool true) eq_refl eq_refl eq_refl) as [Hn Hc].
    split; [exact Hn|]. apply Hc. reflexivity.
  - destruct (Hiter (VTuple [VInt 1; VClass CKeyboardInterrupt])
                [VInt 1; VClass CKeyboardInterrupt] eq_refl) as [Hn Hc].
    + repeat constructor.
    + split; [exact Hn|]. apply Hc. reflexivity.
Defined.

End Concrete.
